(** * lava.ts: a typed client of the Lava payment API

    A shallow embedding of [src/lava.ts].  The file has one class, [Lava],
    with one method per remote endpoint; every method builds an object
    literal and hands it to the private method [_request], which strips the
    [undefined] entries, calls [fetch], parses the JSON answer and turns an
    answer carrying [status === 'error'] (and every exception) into a
    [LavaError].

    JavaScript values are an inductive type, an object is an association
    list in insertion order, exceptions are a sum type, and the only effect,
    the HTTP call, is a small monad that reads the transport's reaction and
    logs the call that was issued.

    The methods are modelled as they are written.  The decorator [@validate]
    comes from the package [validate-utils], which is not part of the
    repository, and is taken to pass the call on.  Whatever [fetch] and
    [response.json()] throw is an [Error] object with a string message. *)

From Stdlib Require Import String Ascii List ZArith Bool DecimalString.
Import ListNotations.
Open Scope string_scope.
Open Scope list_scope.

(** ** The platform

    The program never computes with numbers or dates: it only passes them
    on, serialises them or interpolates them.  They stay abstract, with the
    conversions the runtime provides. *)

Class Platform : Type := {
  number : Type;
  date : Type;
  (** [Number::toString(x)] in radix 10. *)
  Number_toString : number -> string;
  (** false on [NaN], [Infinity] and [-Infinity]. *)
  Number_isFinite : number -> bool;
  (** [Date.prototype.toString]. *)
  Date_toString : date -> string;
  (** [Date.prototype.toISOString]; [None] when the time value is [NaN]. *)
  Date_toISOString : date -> option string
}.

(** ** The parameter interfaces

    An optional property [p?: T | undefined] is an [option T]: [None] stands
    for a property that is missing or [undefined], which the destructuring
    default [p = undefined] does not tell apart. *)

Module WithdrawCreateParams.
Record t `{Platform} : Type := {
  account : string;
  amount : number;
  service : string;
  walletTo : string;
  orderId : option string;
  hookUrl : option string;
  subtract : option bool;
  comment : option string
}.
End WithdrawCreateParams.

Module WithdrawInfoParams.
Record t : Type := { id : string }.
End WithdrawInfoParams.

Module TransferCreateParams.
Record t `{Platform} : Type := {
  accountFrom : string;
  accountTo : string;
  amount : number;
  subtract : option bool;
  comment : option string
}.
End TransferCreateParams.

Module TransferInfoParams.
Record t : Type := { id : string }.
End TransferInfoParams.

Module TransactionsListParams.
Record t `{Platform} : Type := {
  transferType : option string;
  account : option string;
  periodStart : option date;
  periodEnd : option date;
  offset : option number;
  limit : option number
}.
End TransactionsListParams.

Module InvoiceCreateParams.
Record t `{Platform} : Type := {
  walletTo : string;
  sum : number;
  orderId : option string;
  hookUrl : option string;
  successUrl : option string;
  failUrl : option string;
  expire : option number;
  subtract : option bool;
  customFields : option (list (list string));
  comment : option string;
  merchantId : option string;
  merchantName : option string
}.
End InvoiceCreateParams.

Module InvoiceInfoParams.
Record t : Type := {
  id : option string;
  orderId : option string
}.
End InvoiceInfoParams.

Module InvoiceSetWebhookParams.
Record t : Type := { url : string }.
End InvoiceSetWebhookParams.

(** ** Exceptions

    [class LavaError extends Error {}]; the other classes are what the
    runtime and the transport throw. *)

Inductive ErrorClass : Type :=
| LavaError
| TypeError
| SyntaxError
| FetchError
| AbortError.

Record Error : Type := mkError {
  error_class : ErrorClass;
  message : string
}.

(** [new C(msg)] for a string [msg]. *)
Definition new_Error (c : ErrorClass) (msg : string) : Error :=
  {| error_class := c; message := msg |}.

(** A platform to run the client on: the numbers are the integers below
    2^53 in magnitude, which print in plain decimal, and the one date is the
    invalid date. *)
Definition integer_platform : Platform := {|
  number := Z;
  date := unit;
  Number_toString := fun z => NilZero.string_of_int (Z.to_int z);
  Number_isFinite := fun _ => true;
  Date_toString := fun _ => "Invalid Date";
  Date_toISOString := fun _ => None
|}.

(** ** The HTTP call *)

Record RequestInit : Type := {
  method : string;
  (** [None] is a call without the [body] option. *)
  body : option string;
  headers : list (string * string)
}.

Record Call : Type := {
  call_url : string;
  call_init : RequestInit
}.

(** What running an asynchronous computation gives: the calls it issued,
    in order, and the exception thrown or the value returned. *)
Record Run (A : Type) : Type := {
  calls : list Call;
  outcome : Error + A
}.
Arguments calls {A} _.
Arguments outcome {A} _.

Section Client.
Context `{Platform}.

(** ** JavaScript values *)

#[warnings="-register-all"]
Inductive jsval : Type :=
| VUndefined
| VNull
| VBool (b : bool)
| VNum (n : number)
| VStr (s : string)
| VDate (d : date)
| VArr (elements : list jsval)
| VObj (props : list (string * jsval)).

(** An ordinary object: its own enumerable properties, in insertion order,
    each key once. *)
Definition object : Type := list (string * jsval).

(** [Object.keys(o)]. *)
Definition Object_keys (o : object) : list string := map fst o.

(** [o[key]] on an ordinary object, for a key that no prototype defines. *)
Fixpoint Get (o : object) (key : string) : jsval :=
  match o with
  | [] => VUndefined
  | (k, v) :: rest => if String.eqb k key then v else Get rest key
  end.

(** [delete o[key]]. *)
Definition delete (o : object) (key : string) : object :=
  filter (fun p => negb (String.eqb (fst p) key)) o.

(** [v === undefined]. *)
Definition is_undefined (v : jsval) : bool :=
  match v with VUndefined => true | _ => false end.

(** [v === 'lit'] for a string literal. *)
Definition strict_equals_string (v : jsval) (lit : string) : bool :=
  match v with VStr s => String.eqb s lit | _ => false end.

(** [typeof v]. *)
Definition typeof (v : jsval) : string :=
  match v with
  | VUndefined => "undefined"
  | VBool _ => "boolean"
  | VNum _ => "number"
  | VStr _ => "string"
  | VNull | VDate _ | VArr _ | VObj _ => "object"
  end.

(** [v.name] for a property name that is neither an array index nor
    [length] nor defined by a prototype ([status], [code] and [message] are
    such names).  The messages are V8's. *)
Definition GetV (v : jsval) (name : string) : Error + jsval :=
  match v with
  | VUndefined =>
      inl (new_Error TypeError
             ("Cannot read properties of undefined (reading '" ++ name ++ "')")%string)
  | VNull =>
      inl (new_Error TypeError
             ("Cannot read properties of null (reading '" ++ name ++ "')")%string)
  | VObj props => inr (Get props name)
  | _ => inr VUndefined
  end.

(** Does the object have an own property [key]? *)
Definition HasOwnProperty (o : object) (key : string) : bool :=
  existsb (String.eqb key) (Object_keys o).

(** [ToString(v)], as a template literal applies it.  An array is joined
    with commas, [undefined] and [null] elements giving the empty string.
    A plain object answers [Object.prototype.toString]; when it has an own
    property [toString] (never callable in the values modelled here)
    neither [toString] nor [valueOf] gives a primitive and the conversion
    throws. *)
Fixpoint ToString (v : jsval) : Error + string :=
  match v with
  | VUndefined => inr "undefined"
  | VNull => inr "null"
  | VBool true => inr "true"
  | VBool false => inr "false"
  | VNum n => inr (Number_toString n)
  | VStr s => inr s
  | VDate d => inr (Date_toString d)
  | VArr elements =>
      let element (e : jsval) : Error + string :=
        match e with
        | VUndefined | VNull => inr ""
        | _ => ToString e
        end in
      (fix join (l : list jsval) : Error + string :=
         match l with
         | [] => inr ""
         | [e] => element e
         | e :: rest =>
             match element e with
             | inl err => inl err
             | inr s =>
                 match join rest with
                 | inl err => inl err
                 | inr r => inr (s ++ "," ++ r)%string
                 end
             end
         end) elements
  | VObj props =>
      if HasOwnProperty props "toString"
      then inl (new_Error TypeError "Cannot convert object to primitive value")
      else inr "[object Object]"
  end.

(** ** [JSON.stringify] *)

Definition hex_digit (n : nat) : ascii :=
  nth n ["0"; "1"; "2"; "3"; "4"; "5"; "6"; "7"; "8"; "9";
         "a"; "b"; "c"; "d"; "e"; "f"]%char "0"%char.

Definition dquote : ascii := "034"%char.
Definition backslash : ascii := "092"%char.

Definition QuoteJSONChar (c : ascii) : string :=
  let n := nat_of_ascii c in
  if Nat.eqb n 8 then String backslash "b"
  else if Nat.eqb n 9 then String backslash "t"
  else if Nat.eqb n 10 then String backslash "n"
  else if Nat.eqb n 12 then String backslash "f"
  else if Nat.eqb n 13 then String backslash "r"
  else if Nat.eqb n 34 then String backslash (String dquote "")
  else if Nat.eqb n 92 then String backslash (String backslash "")
  else if Nat.ltb n 32 then
    String backslash
      (String "u" (String "0" (String "0"
         (String (hex_digit (Nat.div n 16)) (String (hex_digit (Nat.modulo n 16)) "")))))
  else String c "".

Fixpoint QuoteJSONBody (s : string) : string :=
  match s with
  | EmptyString => ""
  | String c rest => (QuoteJSONChar c ++ QuoteJSONBody rest)%string
  end.

Definition QuoteJSONString (s : string) : string :=
  String dquote (QuoteJSONBody s ++ String dquote "")%string.

Definition join_comma (parts : list string) : string :=
  String.concat "," parts.

(** [SerializeJSONProperty]: [None] is [undefined], the answer for a value
    that has no JSON text.  In an array such an element is written [null],
    in an object the property is left out. *)
Fixpoint SerializeJSONProperty (v : jsval) : option string :=
  match v with
  | VUndefined => None
  | VNull => Some "null"
  | VBool true => Some "true"
  | VBool false => Some "false"
  | VNum n => Some (if Number_isFinite n then Number_toString n else "null")
  | VStr s => Some (QuoteJSONString s)
  | VDate d =>
      Some (match Date_toISOString d with
            | Some iso => QuoteJSONString iso
            | None => "null"
            end)
  | VArr elements =>
      Some ("[" ++ join_comma
                     (map (fun e => match SerializeJSONProperty e with
                                    | Some text => text
                                    | None => "null"
                                    end) elements) ++ "]")%string
  | VObj props =>
      Some ("{" ++ join_comma
                     (flat_map (fun p => match SerializeJSONProperty (snd p) with
                                         | Some text => [(QuoteJSONString (fst p) ++ ":" ++ text)%string]
                                         | None => []
                                         end) props) ++ "}")%string
  end.

Definition JSON_stringify (v : jsval) : option string := SerializeJSONProperty v.

(** ** The transport and the monad of asynchronous calls

    A [Response] is what the program can observe of an answer: its HTTP
    status code and what [response.json()] settles to.  The transport
    [Fetch] gives, for every call, the rejection or the response.  An
    [Async] computation reads the transport and yields its [Run]. *)

Record Response : Type := {
  status : Z;
  json : Error + jsval
}.

Definition Fetch : Type := string -> RequestInit -> Error + Response.

Definition Async (A : Type) : Type := Fetch -> Run A.

Definition settled {A : Type} (r : Error + A) : Async A :=
  fun _ => {| calls := []; outcome := r |}.

Definition ret {A : Type} (a : A) : Async A := settled (inr a).

Definition throw {A : Type} (e : Error) : Async A := settled (inl e).

Definition bind {A B : Type} (m : Async A) (k : A -> Async B) : Async B :=
  fun net =>
    let r := m net in
    match outcome r with
    | inl e => {| calls := calls r; outcome := inl e |}
    | inr a =>
        let r' := k a net in
        {| calls := calls r ++ calls r'; outcome := outcome r' |}
    end.

(** [try { m } catch (error) { handler error }]. *)
Definition try_catch {A : Type} (m : Async A) (handler : Error -> Async A) : Async A :=
  fun net =>
    let r := m net in
    match outcome r with
    | inl e =>
        let r' := handler e net in
        {| calls := calls r ++ calls r'; outcome := outcome r' |}
    | inr a => r
    end.

(** [fetch(url, init)]. *)
Definition fetch (url : string) (init : RequestInit) : Async Response :=
  fun net =>
    {| calls := [ {| call_url := url; call_init := init |} ];
       outcome := net url init |}.

Notation "x <- m ;; k" := (bind m (fun x => k))
  (at level 61, m at next level, right associativity).

(** ** The class [Lava] *)

Record Lava : Type := {
  pathPrefix : string;
  apiKey : string
}.

(** [new Lava(apiKey)]. *)
Definition constructor (apiKey : string) : Lava :=
  {| pathPrefix := "https://api.lava.ru"; apiKey := apiKey |}.

(** The loop [for (const key of Object.keys(data)) if (data[key] ===
    undefined) delete data[key]], with the object it leaves. *)
Definition delete_undefined (data : object) : object :=
  fold_left
    (fun data key => if is_undefined (Get data key) then delete data key else data)
    (Object_keys data) data.

Definition _request (this : Lava) (method path : string) (data : object) : Async jsval :=
  let url := (pathPrefix this ++ path)%string in
  let headers := [("Authorization", apiKey this)] in
  let data := delete_undefined data in
  try_catch
    (response <- fetch url {| method := method;
                              body := JSON_stringify (VObj data);
                              headers := headers |} ;;
     result <- settled (json response) ;;
     if String.eqb (typeof result) "object" then
       status <- settled (GetV result "status") ;;
       if strict_equals_string status "error" then
         code <- settled (GetV result "code") ;;
         code <- settled (ToString code) ;;
         message <- settled (GetV result "message") ;;
         message <- settled (ToString message) ;;
         throw (new_Error LavaError (code ++ ": " ++ message)%string)
       else ret result
     else ret result)
    (fun error => throw (new_Error LavaError (message error))).

(** A destructured parameter that defaults to [undefined], as a value. *)
Definition optional {A : Type} (inject : A -> jsval) (p : option A) : jsval :=
  match p with
  | Some a => inject a
  | None => VUndefined
  end.

(** A [string[][]] as a value. *)
Definition VStrings (rows : list (list string)) : jsval :=
  VArr (map (fun row => VArr (map VStr row)) rows).

Definition testPing (this : Lava) : Async jsval :=
  let method := "GET" in
  let path := "/test/ping" in
  _request this method path [].

Definition walletList (this : Lava) : Async jsval :=
  let method := "GET" in
  let path := "/wallet/list" in
  _request this method path [].

Definition withdrawCreate (this : Lava) (p : WithdrawCreateParams.t) : Async jsval :=
  let method := "POST" in
  let path := "/withdraw/create" in
  let data :=
    [ ("account", VStr (WithdrawCreateParams.account p));
      ("amount", VNum (WithdrawCreateParams.amount p));
      ("service", VStr (WithdrawCreateParams.service p));
      ("wallet_to", VStr (WithdrawCreateParams.walletTo p));
      ("order_id", optional VStr (WithdrawCreateParams.orderId p));
      ("hook_url", optional VStr (WithdrawCreateParams.hookUrl p));
      ("substract", optional VBool (WithdrawCreateParams.subtract p));
      ("comment", optional VStr (WithdrawCreateParams.comment p)) ] in
  _request this method path data.

Definition withdrawInfo (this : Lava) (p : WithdrawInfoParams.t) : Async jsval :=
  let method := "POST" in
  let path := "/withdraw/info" in
  let data := [ ("id", VStr (WithdrawInfoParams.id p)) ] in
  _request this method path data.

Definition transferCreate (this : Lava) (p : TransferCreateParams.t) : Async jsval :=
  let method := "POST" in
  let path := "/transfer/create" in
  let data :=
    [ ("account_from", VStr (TransferCreateParams.accountFrom p));
      ("account_to", VStr (TransferCreateParams.accountTo p));
      ("amount", VNum (TransferCreateParams.amount p));
      ("subtract", optional VBool (TransferCreateParams.subtract p));
      ("comment", optional VStr (TransferCreateParams.comment p)) ] in
  _request this method path data.

Definition transferInfo (this : Lava) (p : TransferInfoParams.t) : Async jsval :=
  let method := "POST" in
  let path := "/transfer/info" in
  let data := [ ("id", VStr (TransferInfoParams.id p)) ] in
  _request this method path data.

Definition transactionsList (this : Lava) (p : TransactionsListParams.t) : Async jsval :=
  let method := "POST" in
  let path := "/transactions/list" in
  let data :=
    [ ("transfer_type", optional VStr (TransactionsListParams.transferType p));
      ("account", optional VStr (TransactionsListParams.account p));
      ("period_start", optional VDate (TransactionsListParams.periodStart p));
      ("period_end", optional VDate (TransactionsListParams.periodEnd p));
      ("offset", optional VNum (TransactionsListParams.offset p));
      ("limit", optional VNum (TransactionsListParams.limit p)) ] in
  _request this method path data.

Definition invoiceCreate (this : Lava) (p : InvoiceCreateParams.t) : Async jsval :=
  let method := "POST" in
  let path := "/invoice/create" in
  let data :=
    [ ("wallet_to", VStr (InvoiceCreateParams.walletTo p));
      ("sum", VNum (InvoiceCreateParams.sum p));
      ("order_id", optional VStr (InvoiceCreateParams.orderId p));
      ("hook_url", optional VStr (InvoiceCreateParams.hookUrl p));
      ("success_url", optional VStr (InvoiceCreateParams.successUrl p));
      ("fail_url", optional VStr (InvoiceCreateParams.failUrl p));
      ("expire", optional VNum (InvoiceCreateParams.expire p));
      ("subtract", optional VBool (InvoiceCreateParams.subtract p));
      ("custom_fields", optional VStrings (InvoiceCreateParams.customFields p));
      ("comment", optional VStr (InvoiceCreateParams.comment p));
      ("merchant_id", optional VStr (InvoiceCreateParams.merchantId p));
      ("merchant_name", optional VStr (InvoiceCreateParams.merchantName p)) ] in
  _request this method path data.

Definition invoiceInfo (this : Lava) (p : InvoiceInfoParams.t) : Async jsval :=
  let method := "POST" in
  let path := "/invoice/info" in
  let data :=
    [ ("id", optional VStr (InvoiceInfoParams.id p));
      ("order_id", optional VStr (InvoiceInfoParams.orderId p)) ] in
  _request this method path data.

Definition invoiceSetWebhook (this : Lava) (p : InvoiceSetWebhookParams.t) : Async jsval :=
  let method := "POST" in
  let path := "/invoice/set-webhook" in
  let data := [ ("url", VStr (InvoiceSetWebhookParams.url p)) ] in
  _request this method path data.

Definition invoiceGenerateSecretKey (this : Lava) : Async jsval :=
  let method := "GET" in
  let path := "/invoice/generate-secret-key" in
  _request this method path [].

(** ** The operations as data

    One constructor per public method, to quantify over every operation. *)

Inductive Operation : Type :=
| TestPing
| WalletList
| WithdrawCreate (p : WithdrawCreateParams.t)
| WithdrawInfo (p : WithdrawInfoParams.t)
| TransferCreate (p : TransferCreateParams.t)
| TransferInfo (p : TransferInfoParams.t)
| TransactionsList (p : TransactionsListParams.t)
| InvoiceCreate (p : InvoiceCreateParams.t)
| InvoiceInfo (p : InvoiceInfoParams.t)
| InvoiceSetWebhook (p : InvoiceSetWebhookParams.t)
| InvoiceGenerateSecretKey.

Definition invoke (this : Lava) (op : Operation) : Async jsval :=
  match op with
  | TestPing => testPing this
  | WalletList => walletList this
  | WithdrawCreate p => withdrawCreate this p
  | WithdrawInfo p => withdrawInfo this p
  | TransferCreate p => transferCreate this p
  | TransferInfo p => transferInfo this p
  | TransactionsList p => transactionsList this p
  | InvoiceCreate p => invoiceCreate this p
  | InvoiceInfo p => invoiceInfo this p
  | InvoiceSetWebhook p => invoiceSetWebhook this p
  | InvoiceGenerateSecretKey => invoiceGenerateSecretKey this
  end.

(** The call [_request] issues for a method, a path and an object. *)
Definition request (this : Lava) (method path : string) (data : object) : Call :=
  {| call_url := (pathPrefix this ++ path)%string;
     call_init := {| method := method;
                     body := JSON_stringify (VObj (delete_undefined data));
                     headers := [("Authorization", apiKey this)] |} |}.

(** What the transport answers to a call. *)
Definition reply (net : Fetch) (c : Call) : Error + Response :=
  net (call_url c) (call_init c).

(** The three arguments each method passes to [_request]; [invoke_request]
    below ties them to the methods. *)
Definition method_of (op : Operation) : string :=
  match op with
  | TestPing | WalletList | InvoiceGenerateSecretKey => "GET"
  | _ => "POST"
  end.

Definition path_of (op : Operation) : string :=
  match op with
  | TestPing => "/test/ping"
  | WalletList => "/wallet/list"
  | WithdrawCreate _ => "/withdraw/create"
  | WithdrawInfo _ => "/withdraw/info"
  | TransferCreate _ => "/transfer/create"
  | TransferInfo _ => "/transfer/info"
  | TransactionsList _ => "/transactions/list"
  | InvoiceCreate _ => "/invoice/create"
  | InvoiceInfo _ => "/invoice/info"
  | InvoiceSetWebhook _ => "/invoice/set-webhook"
  | InvoiceGenerateSecretKey => "/invoice/generate-secret-key"
  end.

Definition data_of (op : Operation) : object :=
  match op with
  | TestPing | WalletList | InvoiceGenerateSecretKey => []
  | WithdrawCreate p =>
      [ ("account", VStr (WithdrawCreateParams.account p));
        ("amount", VNum (WithdrawCreateParams.amount p));
        ("service", VStr (WithdrawCreateParams.service p));
        ("wallet_to", VStr (WithdrawCreateParams.walletTo p));
        ("order_id", optional VStr (WithdrawCreateParams.orderId p));
        ("hook_url", optional VStr (WithdrawCreateParams.hookUrl p));
        ("substract", optional VBool (WithdrawCreateParams.subtract p));
        ("comment", optional VStr (WithdrawCreateParams.comment p)) ]
  | WithdrawInfo p => [ ("id", VStr (WithdrawInfoParams.id p)) ]
  | TransferCreate p =>
      [ ("account_from", VStr (TransferCreateParams.accountFrom p));
        ("account_to", VStr (TransferCreateParams.accountTo p));
        ("amount", VNum (TransferCreateParams.amount p));
        ("subtract", optional VBool (TransferCreateParams.subtract p));
        ("comment", optional VStr (TransferCreateParams.comment p)) ]
  | TransferInfo p => [ ("id", VStr (TransferInfoParams.id p)) ]
  | TransactionsList p =>
      [ ("transfer_type", optional VStr (TransactionsListParams.transferType p));
        ("account", optional VStr (TransactionsListParams.account p));
        ("period_start", optional VDate (TransactionsListParams.periodStart p));
        ("period_end", optional VDate (TransactionsListParams.periodEnd p));
        ("offset", optional VNum (TransactionsListParams.offset p));
        ("limit", optional VNum (TransactionsListParams.limit p)) ]
  | InvoiceCreate p =>
      [ ("wallet_to", VStr (InvoiceCreateParams.walletTo p));
        ("sum", VNum (InvoiceCreateParams.sum p));
        ("order_id", optional VStr (InvoiceCreateParams.orderId p));
        ("hook_url", optional VStr (InvoiceCreateParams.hookUrl p));
        ("success_url", optional VStr (InvoiceCreateParams.successUrl p));
        ("fail_url", optional VStr (InvoiceCreateParams.failUrl p));
        ("expire", optional VNum (InvoiceCreateParams.expire p));
        ("subtract", optional VBool (InvoiceCreateParams.subtract p));
        ("custom_fields", optional VStrings (InvoiceCreateParams.customFields p));
        ("comment", optional VStr (InvoiceCreateParams.comment p));
        ("merchant_id", optional VStr (InvoiceCreateParams.merchantId p));
        ("merchant_name", optional VStr (InvoiceCreateParams.merchantName p)) ]
  | InvoiceInfo p =>
      [ ("id", optional VStr (InvoiceInfoParams.id p));
        ("order_id", optional VStr (InvoiceInfoParams.orderId p)) ]
  | InvoiceSetWebhook p => [ ("url", VStr (InvoiceSetWebhookParams.url p)) ]
  end.

(** The call an operation issues, and the object it serialises. *)
Definition request_of (this : Lava) (op : Operation) : Call :=
  request this (method_of op) (path_of op) (data_of op).

Definition body_mapping (op : Operation) : object :=
  delete_undefined (data_of op).

(** The answer has the error shape: an object whose [status] is the string
    [error]. *)
Definition error_shaped (v : jsval) : bool :=
  match v with
  | VObj props => strict_equals_string (Get props "status") "error"
  | _ => false
  end.

(** A transport that answers every call with [s] as the status code where
    [net] answers at all. *)
Definition with_status (s : Z) (net : Fetch) : Fetch :=
  fun url init =>
    match net url init with
    | inl e => inl e
    | inr response => inr {| status := s; json := json response |}
    end.

(** A call that carries no body: the [body] option is missing or is the
    empty text. *)
Definition carries_no_body (c : Call) : Prop :=
  body (call_init c) = None \/ body (call_init c) = Some "".

(** ** The specification's table of parameters (section 4.1)

    These definitions follow the specification, not the source: the
    snake_case translation of a camelCase name, and for every operation the
    parameters of the table that the caller provided, under their camelCase
    names and in the table's order. *)

Definition is_upper (c : ascii) : bool :=
  let n := nat_of_ascii c in Nat.leb 65 n && Nat.leb n 90.

Definition to_lower (c : ascii) : ascii :=
  if is_upper c then ascii_of_nat (nat_of_ascii c + 32) else c.

Fixpoint snake_case (name : string) : string :=
  match name with
  | EmptyString => ""
  | String c rest =>
      if is_upper c
      then String "_" (String (to_lower c) (snake_case rest))
      else String c (snake_case rest)
  end.

Definition given {A : Type} (name : string) (inject : A -> jsval) (p : option A)
  : list (string * jsval) :=
  match p with
  | Some a => [(name, inject a)]
  | None => []
  end.

Definition spec_provided (op : Operation) : list (string * jsval) :=
  match op with
  | TestPing | WalletList | InvoiceGenerateSecretKey => []
  | WithdrawCreate p =>
      [ ("account", VStr (WithdrawCreateParams.account p));
        ("amount", VNum (WithdrawCreateParams.amount p));
        ("service", VStr (WithdrawCreateParams.service p));
        ("walletTo", VStr (WithdrawCreateParams.walletTo p)) ]
      ++ given "orderId" VStr (WithdrawCreateParams.orderId p)
      ++ given "hookUrl" VStr (WithdrawCreateParams.hookUrl p)
      ++ given "subtract" VBool (WithdrawCreateParams.subtract p)
      ++ given "comment" VStr (WithdrawCreateParams.comment p)
  | WithdrawInfo p => [ ("id", VStr (WithdrawInfoParams.id p)) ]
  | TransferCreate p =>
      [ ("accountFrom", VStr (TransferCreateParams.accountFrom p));
        ("accountTo", VStr (TransferCreateParams.accountTo p));
        ("amount", VNum (TransferCreateParams.amount p)) ]
      ++ given "subtract" VBool (TransferCreateParams.subtract p)
      ++ given "comment" VStr (TransferCreateParams.comment p)
  | TransferInfo p => [ ("id", VStr (TransferInfoParams.id p)) ]
  | TransactionsList p =>
      given "transferType" VStr (TransactionsListParams.transferType p)
      ++ given "account" VStr (TransactionsListParams.account p)
      ++ given "periodStart" VDate (TransactionsListParams.periodStart p)
      ++ given "periodEnd" VDate (TransactionsListParams.periodEnd p)
      ++ given "offset" VNum (TransactionsListParams.offset p)
      ++ given "limit" VNum (TransactionsListParams.limit p)
  | InvoiceCreate p =>
      [ ("walletTo", VStr (InvoiceCreateParams.walletTo p));
        ("sum", VNum (InvoiceCreateParams.sum p)) ]
      ++ given "orderId" VStr (InvoiceCreateParams.orderId p)
      ++ given "hookUrl" VStr (InvoiceCreateParams.hookUrl p)
      ++ given "successUrl" VStr (InvoiceCreateParams.successUrl p)
      ++ given "failUrl" VStr (InvoiceCreateParams.failUrl p)
      ++ given "expire" VNum (InvoiceCreateParams.expire p)
      ++ given "subtract" VBool (InvoiceCreateParams.subtract p)
      ++ given "customFields" VStrings (InvoiceCreateParams.customFields p)
      ++ given "comment" VStr (InvoiceCreateParams.comment p)
      ++ given "merchantId" VStr (InvoiceCreateParams.merchantId p)
      ++ given "merchantName" VStr (InvoiceCreateParams.merchantName p)
  | InvoiceInfo p =>
      given "id" VStr (InvoiceInfoParams.id p)
      ++ given "orderId" VStr (InvoiceInfoParams.orderId p)
  | InvoiceSetWebhook p => [ ("url", VStr (InvoiceSetWebhookParams.url p)) ]
  end.

(** The body the specification asks for: every provided parameter under
    the snake_case translation of its name, with its value. *)
Definition spec_body (op : Operation) : object :=
  map (fun arg => (snake_case (fst arg), snd arg)) (spec_provided op).

(** The entry the loop deletes for [key]. *)
Definition targets (key : string) (p : string * jsval) : bool :=
  String.eqb (fst p) key && is_undefined (snd p).

(** The property names that [Object.prototype] defines, which every
    ordinary object inherits.  [Get] reads own properties; it is [data[k]]
    for every own key and for every key outside this list. *)
Definition Object_prototype_names : list string :=
  [ "constructor"; "__defineGetter__"; "__defineSetter__"; "hasOwnProperty";
    "__lookupGetter__"; "__lookupSetter__"; "isPrototypeOf"; "propertyIsEnumerable";
    "toString"; "valueOf"; "__proto__"; "toLocaleString" ].

(** Does the text hold a colon followed by a space? *)
Fixpoint has_colon_space (s : string) : bool :=
  match s with
  | EmptyString => false
  | String a rest =>
      (Ascii.eqb a ":"
       && match rest with
          | String b _ => Ascii.eqb b " "
          | EmptyString => false
          end)
      || has_colon_space rest
  end.

End Client.

(** ** Concrete inputs, on [integer_platform] *)

Definition key_client : Lava := constructor "secret-key".

Definition refused : @Fetch integer_platform :=
  fun _ _ => inl (new_Error FetchError "connect ECONNREFUSED").

Definition answers (s : Z) (result : @jsval integer_platform) : @Fetch integer_platform :=
  fun _ _ => inr {| status := s; json := inr result |}.

Definition bad_account : @jsval integer_platform :=
  VObj [ ("status", VStr "error"); ("code", @VNum integer_platform 42%Z); ("message", VStr "bad account") ].

Definition withdraw_w1 : @Operation integer_platform :=
  WithdrawInfo {| WithdrawInfoParams.id := "w1" |}.

Definition status_ok : @jsval integer_platform :=
  VObj [ ("status", VStr "ok") ].

Definition no_identifiers : InvoiceInfoParams.t :=
  {| InvoiceInfoParams.id := None; InvoiceInfoParams.orderId := None |}.

(** The literal of [invoiceInfo({orderId: 'o1'})]. *)
Definition order_only : @object integer_platform :=
  [ ("id", VUndefined); ("order_id", VStr "o1") ].

(** An array that holds an error-shaped object. *)
Definition error_list : @jsval integer_platform :=
  VArr [ VObj [ ("status", VStr "error") ] ].

(** An error-shaped answer whose [code] is an object with an own property
    [toString]. *)
Definition unprintable_code : @jsval integer_platform :=
  VObj [ ("status", VStr "error");
         ("code", VObj [ ("toString", VStr "x") ]);
         ("message", VStr "bad account") ].

Definition withdraw_plain : @Operation integer_platform :=
  @WithdrawCreate integer_platform
    {| WithdrawCreateParams.account := "A";
       WithdrawCreateParams.amount := (10%Z : @number integer_platform);
       WithdrawCreateParams.service := "card";
       WithdrawCreateParams.walletTo := "W1";
       WithdrawCreateParams.orderId := Some "o1";
       WithdrawCreateParams.hookUrl := None;
       WithdrawCreateParams.subtract := None;
       WithdrawCreateParams.comment := None |}.

Section Properties.
Context `{Platform}.

(** ** The methods and their three arguments *)

Lemma invoke_request (this : Lava) (op : Operation) :
  invoke this op = _request this (method_of op) (path_of op) (data_of op).
Proof. destruct op; reflexivity. Qed.

(** The translation gives the body keys of the specification's table. *)
Lemma snake_case_table :
  map snake_case
      [ "walletTo"; "accountFrom"; "accountTo"; "orderId"; "hookUrl"; "periodStart";
        "periodEnd"; "transferType"; "successUrl"; "failUrl"; "customFields";
        "merchantId"; "merchantName"; "subtract" ]
  = [ "wallet_to"; "account_from"; "account_to"; "order_id"; "hook_url"; "period_start";
      "period_end"; "transfer_type"; "success_url"; "fail_url"; "custom_fields";
      "merchant_id"; "merchant_name"; "subtract" ].
Proof. reflexivity. Qed.

(** ** What [_request] does with the transport's reaction *)

Ltac run_request :=
  unfold _request, request, reply, try_catch, bind, fetch, settled, throw, ret;
  simpl.

Lemma request_calls (this : Lava) (method path : string) (data : object) (net : Fetch) :
  calls (_request this method path data net) = [request this method path data].
Proof.
  run_request.
  destruct (net _ _) as [e | response]; simpl; [reflexivity |].
  destruct (json response) as [e | result]; simpl; [reflexivity |].
  destruct (String.eqb (typeof result) "object"); simpl; [| reflexivity].
  destruct (GetV result "status") as [e | st]; simpl; [reflexivity |].
  destruct (strict_equals_string st "error"); simpl; [| reflexivity].
  destruct (GetV result "code") as [e | code]; simpl; [reflexivity |].
  destruct (ToString code); simpl; [reflexivity |].
  destruct (GetV result "message") as [e | msg]; simpl; [reflexivity |].
  destruct (ToString msg); reflexivity.
Qed.

Lemma request_fetch_rejected this method path data net e :
  reply net (request this method path data) = inl e ->
  outcome (_request this method path data net) = inl (new_Error LavaError (message e)).
Proof. run_request. intros ->. reflexivity. Qed.


Lemma request_null this method path data net response :
  reply net (request this method path data) = inr response ->
  json response = inr VNull ->
  outcome (_request this method path data net)
  = inl (new_Error LavaError "Cannot read properties of null (reading 'status')").
Proof. run_request. intros -> Hjson. simpl. rewrite Hjson. reflexivity. Qed.

Lemma request_error_shaped this method path data net response props :
  reply net (request this method path data) = inr response ->
  json response = inr (VObj props) ->
  Get props "status" = VStr "error" ->
  outcome (_request this method path data net)
  = inl (new_Error LavaError
           match ToString (Get props "code") with
           | inl e => message e
           | inr code =>
               match ToString (Get props "message") with
               | inl e => message e
               | inr msg => (code ++ ": " ++ msg)%string
               end
           end).
Proof.
  run_request. intros -> Hjson Hstatus. simpl. rewrite Hjson. simpl.
  rewrite Hstatus. simpl.
  destruct (ToString (Get props "code")); simpl; [reflexivity |].
  destruct (ToString (Get props "message")); reflexivity.
Qed.

Lemma request_passes this method path data net response result :
  reply net (request this method path data) = inr response ->
  json response = inr result ->
  result <> VNull ->
  error_shaped result = false ->
  outcome (_request this method path data net) = inr result.
Proof.
  run_request. intros -> Hjson Hnull Hshape. simpl. rewrite Hjson. simpl.
  destruct result; simpl in *; try reflexivity; try congruence.
  rewrite Hshape. reflexivity.
Qed.

(** ** The loop that deletes the undefined entries *)

Lemma filter_id {A : Type} (f : A -> bool) (l : list A) :
  (forall x, In x l -> f x = true) -> filter f l = l.
Proof.
  induction l as [| x l IH]; simpl; intros Hall; [reflexivity |].
  rewrite (Hall x (or_introl eq_refl)). f_equal. apply IH. auto.
Qed.

Lemma absent_key_differs (d : object) (key : string) (p : string * jsval) :
  ~ In key (Object_keys d) -> In p d -> String.eqb (fst p) key = false.
Proof.
  intros Hout Hin. apply String.eqb_neq. intros Heq. apply Hout.
  unfold Object_keys. rewrite <- Heq. apply in_map. exact Hin.
Qed.

Lemma delete_step (d : object) (key : string) :
  NoDup (Object_keys d) ->
  (if is_undefined (Get d key) then delete d key else d)
  = filter (fun p => negb (targets key p)) d.
Proof.
  induction d as [| [k v] rest IH]; simpl; intros Hnd.
  - destruct (is_undefined VUndefined); reflexivity.
  - inversion Hnd as [| ? ? Hout Hrest]; subst.
    unfold targets at 1. simpl. destruct (String.eqb k key) eqn:Hk; simpl.
    + apply String.eqb_eq in Hk. subst k.
      assert (Hkeep : filter (fun p => negb (targets key p)) rest = rest).
      { apply filter_id. intros p Hp. unfold targets.
        rewrite (absent_key_differs rest key p Hout Hp). reflexivity. }
      assert (Hdel : delete rest key = rest).
      { apply filter_id. intros p Hp.
        rewrite (absent_key_differs rest key p Hout Hp). reflexivity. }
      rewrite Hkeep.
      destruct (is_undefined v); simpl.
      * exact Hdel.
      * reflexivity.
    + rewrite <- (IH Hrest).
      destruct (is_undefined (Get rest key)); reflexivity.
Qed.

Lemma NoDup_keys_filter (f : string * jsval -> bool) (d : object) :
  NoDup (Object_keys d) -> NoDup (Object_keys (filter f d)).
Proof.
  induction d as [| [k v] rest IH]; simpl; intros Hnd; [constructor |].
  inversion Hnd as [| ? ? Hout Hrest]; subst.
  destruct (f (k, v)); simpl; [| auto].
  constructor; [| auto].
  intros Hin. apply Hout. unfold Object_keys in *.
  apply in_map_iff in Hin. destruct Hin as [p [Hp Hin]].
  apply filter_In in Hin. apply in_map_iff. exists p. tauto.
Qed.

Lemma filter_filter {A : Type} (f g : A -> bool) (l : list A) :
  filter f (filter g l) = filter (fun x => g x && f x) l.
Proof.
  induction l as [| x l IH]; simpl; [reflexivity |].
  destruct (g x); simpl; [destruct (f x) |]; rewrite IH; reflexivity.
Qed.

Lemma delete_loop (keys : list string) (d : object) :
  NoDup (Object_keys d) ->
  fold_left
    (fun data key => if is_undefined (Get data key) then delete data key else data)
    keys d
  = filter (fun p => negb (existsb (String.eqb (fst p)) keys && is_undefined (snd p))) d.
Proof.
  revert d. induction keys as [| key keys IH]; simpl; intros d Hnd.
  - symmetry. apply filter_id. reflexivity.
  - rewrite (delete_step d key Hnd).
    rewrite IH by (apply NoDup_keys_filter; exact Hnd).
    rewrite filter_filter. apply filter_ext. intros p. unfold targets.
    destruct (String.eqb (fst p) key), (existsb (String.eqb (fst p)) keys),
      (is_undefined (snd p)); reflexivity.
Qed.

(** On an object whose keys are distinct the loop keeps exactly the
    entries whose value is not [undefined], in their order. *)
Lemma delete_undefined_spec (d : object) :
  NoDup (Object_keys d) ->
  delete_undefined d = filter (fun p => negb (is_undefined (snd p))) d.
Proof.
  intros Hnd. unfold delete_undefined. rewrite (delete_loop _ d Hnd).
  apply filter_ext_in. intros p Hp.
  assert (Hin : existsb (String.eqb (fst p)) (Object_keys d) = true).
  { apply existsb_exists. exists (fst p). split.
    - unfold Object_keys. apply in_map. exact Hp.
    - apply String.eqb_refl. }
  rewrite Hin. reflexivity.
Qed.

(** The keys of every object literal in the class are distinct. *)
Lemma data_of_NoDup (op : Operation) : NoDup (Object_keys (data_of op)).
Proof.
  destruct op; simpl;
    repeat (constructor; [simpl; intuition discriminate |]); constructor.
Qed.

(** For every operation the object that is serialised holds exactly the
    entries of the literal whose value is not [undefined]. *)
Lemma body_mapping_spec (op : Operation) :
  body_mapping op = filter (fun p => negb (is_undefined (snd p))) (data_of op).
Proof. apply delete_undefined_spec, data_of_NoDup. Qed.

(** No key of the serialised object holds [undefined]: a parameter left
    unset never appears. *)
Lemma unset_parameter_omitted (op : Operation) (key : string) (v : jsval) :
  In (key, v) (body_mapping op) -> In (key, v) (data_of op) /\ v <> VUndefined.
Proof.
  rewrite body_mapping_spec. intros Hin. apply filter_In in Hin.
  destruct Hin as [Hin Hdef]. split; [exact Hin |].
  intros ->. discriminate Hdef.
Qed.

Lemma Get_In (d : object) (key : string) (v : jsval) :
  NoDup (Object_keys d) -> In (key, v) d -> Get d key = v.
Proof.
  induction d as [| [k w] rest IH]; simpl; intros Hnd Hin; [contradiction |].
  inversion Hnd as [| ? ? Hout Hrest]; subst.
  destruct Hin as [Heq | Hin].
  - inversion Heq; subst. rewrite String.eqb_refl. reflexivity.
  - pose proof (absent_key_differs rest k (key, v) Hout Hin) as Hne.
    simpl in Hne. rewrite String.eqb_sym, Hne. auto.
Qed.

(** A key whose value in the literal is [undefined] is not a key of the
    serialised object. *)
Lemma unset_key_absent (op : Operation) (key : string) :
  Get (data_of op) key = VUndefined -> ~ In key (Object_keys (body_mapping op)).
Proof.
  intros Hget Hin. unfold Object_keys in Hin. apply in_map_iff in Hin.
  destruct Hin as [[k v] [Hk Hin]]. simpl in Hk. subst k.
  apply unset_parameter_omitted in Hin. destruct Hin as [Hin Hdef].
  apply Hdef. rewrite <- Hget. symmetry.
  apply Get_In; [apply data_of_NoDup | exact Hin].
Qed.

(** X9: apart from [withdrawCreate] called with [subtract], every operation
    serialises exactly the body the specification asks for: the provided
    parameters, in the literal's order, each under the snake_case form of
    its name and with its value. *)
Lemma body_mapping_is_spec_body (op : Operation) :
  match op with
  | WithdrawCreate p => WithdrawCreateParams.subtract p = None
  | _ => True
  end ->
  body_mapping op = spec_body op.
Proof.
  rewrite body_mapping_spec. unfold spec_body.
  destruct op as [| | p | p | p | p | p | p | p | p |]; try reflexivity.
  - destruct p as [a n s w [o |] [h |] [b |] [c |]]; simpl; intros Hsub;
      try discriminate Hsub; reflexivity.
  - destruct p as [a b n [s |] [c |]]; reflexivity.
  - destruct p as [[t |] [a |] [ps |] [pe |] [o |] [l |]]; reflexivity.
  - destruct p as [w n [o |] [h |] [su |] [f |] [e |] [b |] [cf |] [c |] [mi |] [mn |]];
      reflexivity.
  - destruct p as [[i |] [o |]]; reflexivity.
Qed.

(** An answer that is neither [null] nor error-shaped is the result of the
    operation, whatever its kind: array, primitive or object. *)
Lemma answer_returned_verbatim this op net response result :
  reply net (request_of this op) = inr response ->
  json response = inr result ->
  result <> VNull ->
  error_shaped result = false ->
  outcome (invoke this op net) = inr result.
Proof. rewrite invoke_request. apply request_passes. Qed.

(** ** The claims *)

(** C1, at the input where the code departs from it: [withdrawCreate]
    called with [subtract] sends the key [substract], so the keys of the
    transmitted body are not the snake_case keys of the provided
    parameters, which include [subtract]. *)
Theorem withdrawCreate_subtract_key_set
    (this : Lava) (net : Fetch) (account service walletTo : string)
    (amount : number) (orderId hookUrl comment : option string) (flag : bool) :
  let op := WithdrawCreate
              {| WithdrawCreateParams.account := account;
                 WithdrawCreateParams.amount := amount;
                 WithdrawCreateParams.service := service;
                 WithdrawCreateParams.walletTo := walletTo;
                 WithdrawCreateParams.orderId := orderId;
                 WithdrawCreateParams.hookUrl := hookUrl;
                 WithdrawCreateParams.subtract := Some flag;
                 WithdrawCreateParams.comment := comment |} in
  map (fun c => body (call_init c)) (calls (invoke this op net))
  = [JSON_stringify (VObj (body_mapping op))]
  /\ In "substract" (Object_keys (body_mapping op))
  /\ ~ In "subtract" (Object_keys (body_mapping op))
  /\ In "subtract" (Object_keys (spec_body op)).
Proof.
  intros op. split.
  - unfold op. rewrite invoke_request, request_calls. reflexivity.
  - unfold op. rewrite body_mapping_spec.
    destruct orderId, hookUrl, comment; simpl;
      (split; [tauto | split; [intuition discriminate | tauto]]).
Qed.

(** C2, as amended: when the answer is an object whose [status] is
    ['error'], the operation throws a [LavaError]; whenever the template
    literal can convert [code] and [message] to strings, its message is
    [code], a colon, a space and [message]. *)
Theorem remote_error_raises_LavaError this op net response props :
  reply net (request_of this op) = inr response ->
  json response = inr (VObj props) ->
  Get props "status" = VStr "error" ->
  (exists text, outcome (invoke this op net) = inl (new_Error LavaError text))
  /\ (forall code msg,
        ToString (Get props "code") = inr code ->
        ToString (Get props "message") = inr msg ->
        outcome (invoke this op net)
        = inl (new_Error LavaError (code ++ ": " ++ msg)%string)).
Proof.
  intros Hreply Hjson Hstatus. rewrite invoke_request.
  rewrite (request_error_shaped _ _ _ _ _ _ _ Hreply Hjson Hstatus).
  split; [eexists; reflexivity |].
  intros code msg -> ->. reflexivity.
Qed.

(** C3, at the input where the code departs from it: the answer [null] has
    [typeof] ['object'], reading its [status] throws, and the operation
    fails instead of returning [null]. *)
Theorem null_answer_raises (this : Lava) (op : Operation) (s : Z) :
  outcome (invoke this op (fun _ _ => inr {| status := s; json := inr VNull |}))
  = inl (new_Error LavaError "Cannot read properties of null (reading 'status')").
Proof.
  rewrite invoke_request.
  apply (request_null _ _ _ _ _ {| status := s; json := inr VNull |}); reflexivity.
Qed.

(** C4, at the input where the code departs from it: [withdrawCreate]
    called with [walletTo: 'W1'] and [subtract: true] sends [wallet_to]
    with the value ['W1'], and sends the flag under [substract]; the key
    [subtract] is not in the body. *)
Theorem withdrawCreate_subtract_key
    (this : Lava) (net : Fetch) (account service : string) (amount : number) :
  let op := WithdrawCreate
              {| WithdrawCreateParams.account := account;
                 WithdrawCreateParams.amount := amount;
                 WithdrawCreateParams.service := service;
                 WithdrawCreateParams.walletTo := "W1";
                 WithdrawCreateParams.orderId := None;
                 WithdrawCreateParams.hookUrl := None;
                 WithdrawCreateParams.subtract := Some true;
                 WithdrawCreateParams.comment := None |} in
  calls (invoke this op net)
  = [ {| call_url := (pathPrefix this ++ "/withdraw/create")%string;
         call_init :=
           {| method := "POST";
              body := JSON_stringify
                        (VObj [ ("account", VStr account); ("amount", VNum amount);
                                ("service", VStr service); ("wallet_to", VStr "W1");
                                ("substract", VBool true) ]);
              headers := [("Authorization", apiKey this)] |} |} ]
  /\ Get (body_mapping op) "wallet_to" = VStr "W1"
  /\ Get (body_mapping op) "substract" = VBool true
  /\ Get (body_mapping op) "subtract" = VUndefined
  /\ Get (spec_body op) "subtract" = VBool true.
Proof.
  intros op. unfold op. rewrite invoke_request, request_calls.
  repeat split.
Qed.


(** C6: every operation of a client built with the key [k] issues one call,
    whose only header is [Authorization], with exactly [k] as its value. *)
Theorem authorization_header_is_api_key (k : string) (op : Operation) (net : Fetch) :
  map (fun c => headers (call_init c)) (calls (invoke (constructor k) op net))
  = [[("Authorization", k)]].
Proof. rewrite invoke_request, request_calls. reflexivity. Qed.

(** A GET operation passes no data and the object that is serialised is
    empty, yet the one call it issues carries the text of the empty object
    as its body. *)
Theorem get_operations_send_empty_object this op net :
  method_of op = "GET" ->
  body_mapping op = []
  /\ calls (invoke this op net)
     = [ {| call_url := (pathPrefix this ++ path_of op)%string;
            call_init := {| method := "GET";
                            body := Some "{}";
                            headers := [("Authorization", apiKey this)] |} |} ].
Proof.
  intros Hget. rewrite invoke_request, request_calls.
  destruct op; try discriminate Hget; split; reflexivity.
Qed.

(** C8: [invoiceInfo] called with neither [id] nor [orderId] throws nothing
    of its own: it issues the POST to [/invoice/info], the object that is
    serialised has no key, and an answer that is not an error is
    returned. *)
Theorem invoiceInfo_without_identifiers this net :
  let p := {| InvoiceInfoParams.id := None; InvoiceInfoParams.orderId := None |} in
  body_mapping (InvoiceInfo p) = []
  /\ calls (invoiceInfo this p net)
     = [ {| call_url := (pathPrefix this ++ "/invoice/info")%string;
            call_init := {| method := "POST";
                            body := Some "{}";
                            headers := [("Authorization", apiKey this)] |} |} ]
  /\ (forall response result,
        reply net (request_of this (InvoiceInfo p)) = inr response ->
        json response = inr result ->
        result <> VNull ->
        error_shaped result = false ->
        outcome (invoiceInfo this p net) = inr result).
Proof.
  intros p. split; [reflexivity | split].
  - unfold invoiceInfo. rewrite request_calls. reflexivity.
  - intros response result. apply (answer_returned_verbatim this (InvoiceInfo p)).
Qed.

(** C9: the error is recognised by [status] alone.  When the answer has
    [status] ['error'] and neither [code] nor [message], the operation
    throws a [LavaError] whose message is [undefined: undefined]. *)
Theorem bare_error_status this op net response props :
  reply net (request_of this op) = inr response ->
  json response = inr (VObj props) ->
  Get props "status" = VStr "error" ->
  HasOwnProperty props "code" = false ->
  HasOwnProperty props "message" = false ->
  outcome (invoke this op net) = inl (new_Error LavaError "undefined: undefined").
Proof.
  intros Hreply Hjson Hstatus Hcode Hmsg. rewrite invoke_request.
  rewrite (request_error_shaped _ _ _ _ _ _ _ Hreply Hjson Hstatus).
  assert (Habsent : forall key, HasOwnProperty props key = false ->
                                Get props key = VUndefined).
  { clear. intros key. unfold HasOwnProperty.
    induction props as [| [k v] rest IH]; simpl; [reflexivity |].
    rewrite String.eqb_sym. destruct (String.eqb k key); simpl; [discriminate | exact IH]. }
  rewrite (Habsent _ Hcode), (Habsent _ Hmsg). reflexivity.
Qed.

(** X10: the status code of the response is never read.  Changing it
    changes neither the call nor the outcome, and an answer that is neither
    [null] nor error-shaped is returned under any status code, 500
    included. *)
Theorem status_code_never_inspected this op net (s : Z) :
  calls (invoke this op (with_status s net)) = calls (invoke this op net)
  /\ outcome (invoke this op (with_status s net)) = outcome (invoke this op net)
  /\ (forall result,
        result <> VNull ->
        error_shaped result = false ->
        outcome (invoke this op (fun _ _ => inr {| status := s; json := inr result |}))
        = inr result).
Proof.
  split; [| split].
  - rewrite invoke_request, !request_calls. reflexivity.
  - rewrite invoke_request. unfold with_status. run_request.
    destruct (net _ _) as [e | response]; simpl; [reflexivity |].
    destruct (json response) as [e | result]; simpl; [reflexivity |].
    destruct (String.eqb (typeof result) "object"); simpl; [| reflexivity].
    destruct (GetV result "status") as [e | st]; simpl; [reflexivity |].
    destruct (strict_equals_string st "error"); reflexivity.
  - intros result Hnull Hshape.
    apply (answer_returned_verbatim this op _ {| status := s; json := inr result |});
      auto.
Qed.

(** C10, at the input where the code departs from it: under the status
    code 500 the answer [null], which is not error-shaped, is not returned;
    reading its [status] throws and the operation fails. *)
Theorem status_500_null_answer_raises (this : Lava) (op : Operation) :
  error_shaped VNull = false
  /\ outcome (invoke this op (fun _ _ => inr {| status := 500; json := inr VNull |}))
     = inl (new_Error LavaError "Cannot read properties of null (reading 'status')").
Proof.
  split; [reflexivity |]. rewrite invoke_request.
  apply (request_null _ _ _ _ _ {| status := 500; json := inr VNull |}); reflexivity.
Qed.

(** On a transport that refuses a body on GET, as [node-fetch] does, every
    GET operation fails with the refusal as its [LavaError]. *)
Lemma get_operation_refused this op net e :
  method_of op = "GET" ->
  (forall url init, method init = "GET" -> body init <> None -> net url init = inl e) ->
  outcome (invoke this op net) = inl (new_Error LavaError (message e)).
Proof.
  intros Hget Hnet. rewrite invoke_request. apply request_fetch_rejected.
  unfold reply, request. simpl. apply Hnet; [exact Hget | discriminate].
Qed.

(** ** Further properties of the loop that deletes the undefined entries *)

Lemma is_undefined_true (v : jsval) : is_undefined v = true -> v = VUndefined.
Proof. destruct v; simpl; intros Hv; try discriminate Hv; reflexivity. Qed.

Lemma Get_delete_same (d : object) (key : string) :
  Get (delete d key) key = VUndefined.
Proof.
  induction d as [| [k v] rest IH]; simpl; [reflexivity |].
  destruct (String.eqb k key) eqn:Hk; simpl; [exact IH |].
  rewrite Hk. exact IH.
Qed.

Lemma Get_delete_other (d : object) (key k : string) :
  String.eqb key k = false -> Get (delete d key) k = Get d k.
Proof.
  intros Hne. induction d as [| [k' v] rest IH]; simpl; [reflexivity |].
  destruct (String.eqb k' key) eqn:Hk; simpl.
  - apply String.eqb_eq in Hk. subst k'. rewrite Hne. exact IH.
  - rewrite IH. reflexivity.
Qed.

Lemma delete_step_reads (d : object) (key k : string) :
  Get (if is_undefined (Get d key) then delete d key else d) k = Get d k.
Proof.
  destruct (is_undefined (Get d key)) eqn:Hu; [| reflexivity].
  destruct (String.eqb key k) eqn:Hk.
  - apply String.eqb_eq in Hk. subst k. rewrite Get_delete_same.
    symmetry. apply is_undefined_true. exact Hu.
  - apply Get_delete_other. exact Hk.
Qed.

Lemma delete_loop_reads (keys : list string) (d : object) (k : string) :
  Get (fold_left
         (fun data key => if is_undefined (Get data key) then delete data key else data)
         keys d) k
  = Get d k.
Proof.
  revert d. induction keys as [| key keys IH]; simpl; intros d; [reflexivity |].
  rewrite IH. apply delete_step_reads.
Qed.

Lemma Get_absent (d : object) (k : string) :
  ~ In k (Object_keys d) -> Get d k = VUndefined.
Proof.
  induction d as [| [k' v] rest IH]; simpl; intros Hout; [reflexivity |].
  destruct (String.eqb k' k) eqn:Hk.
  - apply String.eqb_eq in Hk. exfalso. apply Hout. left. exact Hk.
  - apply IH. intros Hin. apply Hout. right. exact Hin.
Qed.

Lemma delete_loop_keys (keys : list string) (d : object) (k : string) :
  In k (Object_keys
          (fold_left
             (fun data key => if is_undefined (Get data key) then delete data key else data)
             keys d)) ->
  In k (Object_keys d).
Proof.
  revert d. induction keys as [| key keys IH]; simpl; intros d Hin; [exact Hin |].
  apply IH in Hin. destruct (is_undefined (Get d key)); [| exact Hin].
  unfold Object_keys, delete in *. apply in_map_iff in Hin.
  destruct Hin as [p [Hp Hin]]. apply filter_In in Hin.
  apply in_map_iff. exists p. tauto.
Qed.

Lemma delete_loop_visited (keys : list string) (d : object) (k : string) :
  In k keys ->
  In k (Object_keys
          (fold_left
             (fun data key => if is_undefined (Get data key) then delete data key else data)
             keys d)) ->
  Get d k <> VUndefined.
Proof.
  revert d. induction keys as [| key keys IH]; simpl; intros d Hk Hin; [contradiction |].
  destruct (String.eqb key k) eqn:Heq.
  - apply String.eqb_eq in Heq. subst key.
    destruct (is_undefined (Get d k)) eqn:Hu.
    + exfalso. apply delete_loop_keys in Hin.
      unfold Object_keys, delete in Hin. apply in_map_iff in Hin.
      destruct Hin as [p [Hp Hin]]. apply filter_In in Hin. destruct Hin as [_ Hne].
      rewrite Hp, String.eqb_refl in Hne. discriminate Hne.
    + intros Hundef. rewrite Hundef in Hu. discriminate Hu.
  - destruct Hk as [Hk | Hk]; [subst key; rewrite String.eqb_refl in Heq; discriminate |].
    rewrite <- (delete_step_reads d key k). apply (IH _ Hk Hin).
Qed.

(** X1: the loop is invisible to a read: for every key [k] that
    [Object.prototype] does not define, [data[k]] is the same after the
    loop as before it, whether the key was deleted or not. *)
Theorem delete_undefined_preserves_reads (d : object) (k : string) :
  ~ In k Object_prototype_names ->
  Get (delete_undefined d) k = Get d k.
Proof. intros _. apply delete_loop_reads. Qed.

(** X2: for every key [k] that [Object.prototype] does not define, [k] is
    a key of the object after the loop exactly when [data[k]] was not
    [undefined] before it; [null], [false], the empty string and every
    other value stay. *)
Theorem delete_undefined_keys (d : object) (k : string) :
  ~ In k Object_prototype_names ->
  (In k (Object_keys (delete_undefined d)) <-> Get d k <> VUndefined).
Proof.
  intros _. split.
  - intros Hin. apply (delete_loop_visited (Object_keys d)); [| exact Hin].
    apply (delete_loop_keys (Object_keys d)). exact Hin.
  - intros Hdef. unfold delete_undefined in *.
    rewrite <- (delete_loop_reads (Object_keys d) d k) in Hdef.
    destruct (in_dec string_dec k (Object_keys (delete_undefined d))) as [Hin | Hout];
      [exact Hin |].
    exfalso. apply Hdef. apply Get_absent. exact Hout.
Qed.

(** X3: on an object whose keys are distinct the loop keeps the entries
    whose value is not [undefined], with their values and in their order,
    and deletes the others. *)
Theorem delete_undefined_keeps_defined_entries (d : object) :
  NoDup (Object_keys d) ->
  delete_undefined d = filter (fun p => negb (is_undefined (snd p))) d.
Proof. apply delete_undefined_spec. Qed.

Lemma flat_map_filter {A B : Type} (f : A -> list B) (g : A -> bool) (l : list A) :
  (forall x, In x l -> g x = false -> f x = []) ->
  flat_map f (filter g l) = flat_map f l.
Proof.
  induction l as [| x l IH]; simpl; intros Hskip; [reflexivity |].
  destruct (g x) eqn:Hg; simpl.
  - rewrite IH by auto. reflexivity.
  - rewrite (Hskip x (or_introl eq_refl) Hg). simpl. apply IH. auto.
Qed.

(** X4: the loop does not change the text that is sent.  [JSON.stringify]
    leaves out a property whose value is [undefined], so the object
    serialises to the same text before the loop as after it. *)
Theorem delete_undefined_same_text (d : object) :
  NoDup (Object_keys d) ->
  JSON_stringify (VObj (delete_undefined d)) = JSON_stringify (VObj d).
Proof.
  intros Hnd. rewrite (delete_undefined_spec d Hnd).
  unfold JSON_stringify. simpl.
  rewrite flat_map_filter; [reflexivity |].
  intros [k v] _ Hu. simpl in *.
  apply negb_false_iff, is_undefined_true in Hu. subst v. reflexivity.
Qed.

(** ** Further properties of the operations *)

(** The outcome of [_request] is settled by the transport's reaction to
    its one call. *)
Lemma request_outcome_reply this this' method method' path path' data data' net net' :
  reply net (request this method path data) = reply net' (request this' method' path' data') ->
  outcome (_request this method path data net)
  = outcome (_request this' method' path' data' net').
Proof.
  unfold reply, request. simpl. intros Heq. run_request. rewrite Heq.
  destruct (net' _ _) as [e | response]; simpl; [reflexivity |].
  destruct (json response) as [e | result]; simpl; [reflexivity |].
  destruct (String.eqb (typeof result) "object"); simpl; [| reflexivity].
  destruct (GetV result "status") as [e | st]; simpl; [reflexivity |].
  destruct (strict_equals_string st "error"); simpl; [| reflexivity].
  destruct (GetV result "code") as [e | code]; simpl; [reflexivity |].
  destruct (ToString code) as [e | c]; simpl; [reflexivity |].
  destruct (GetV result "message") as [e | msg]; simpl; [reflexivity |].
  destruct (ToString msg); reflexivity.
Qed.

(** X5: every operation issues exactly one call, whatever the transport
    does: a rejected [fetch] or an error answer is not retried.  The call
    always has a body text, and the outcome depends on the transport only
    through its reaction to that call. *)
Theorem one_call_per_operation this op net :
  calls (invoke this op net) = [request_of this op]
  /\ (exists text, body (call_init (request_of this op)) = Some text)
  /\ (forall net',
        reply net' (request_of this op) = reply net (request_of this op) ->
        outcome (invoke this op net') = outcome (invoke this op net)).
Proof.
  split; [| split].
  - rewrite invoke_request. apply request_calls.
  - eexists. reflexivity.
  - intros net' Heq. rewrite invoke_request. apply request_outcome_reply. exact Heq.
Qed.

(** X6: once the answer is parsed, the operation returns it exactly when
    it is not [null] and is not an object whose [status] is the string
    ['error']; in the two other cases it throws. *)
Theorem answer_returned_iff this op net response result :
  reply net (request_of this op) = inr response ->
  json response = inr result ->
  (outcome (invoke this op net) = inr result
   <-> result <> VNull /\ error_shaped result = false)
  /\ ((result = VNull \/ error_shaped result = true) ->
      exists e, outcome (invoke this op net) = inl e).
Proof.
  intros Hreply Hjson.
  assert (Hthrows : (result = VNull \/ error_shaped result = true) ->
                    exists e, outcome (invoke this op net) = inl e).
  { rewrite invoke_request. intros [-> | Hshape].
    - rewrite (request_null _ _ _ _ _ _ Hreply Hjson). eexists. reflexivity.
    - destruct result; simpl in Hshape; try discriminate Hshape.
      assert (Hstatus : Get props "status" = VStr "error").
      { destruct (Get props "status"); simpl in Hshape; try discriminate Hshape.
        apply String.eqb_eq in Hshape. subst s. reflexivity. }
      rewrite (request_error_shaped _ _ _ _ _ _ _ Hreply Hjson Hstatus).
      eexists. reflexivity. }
  split; [split | exact Hthrows].
  - intros Hout. split.
    + intros ->. destruct (Hthrows (or_introl eq_refl)) as [e He].
      rewrite He in Hout. discriminate Hout.
    + destruct (error_shaped result) eqn:Hshape; [| reflexivity].
      destruct (Hthrows (or_intror eq_refl)) as [e He].
      rewrite He in Hout. discriminate Hout.
  - intros [Hnull Hshape]. apply (answer_returned_verbatim this op net response); assumption.
Qed.

(** X7: when the answer is error-shaped and its [code] is an object with
    an own property [toString], the interpolation throws before the
    message is built, and the [LavaError] carries the message of that
    [TypeError] instead of [code] and [message]. *)
Theorem unprintable_code_raises this op net response props inner :
  reply net (request_of this op) = inr response ->
  json response = inr (VObj props) ->
  Get props "status" = VStr "error" ->
  Get props "code" = VObj inner ->
  HasOwnProperty inner "toString" = true ->
  outcome (invoke this op net)
  = inl (new_Error LavaError "Cannot convert object to primitive value").
Proof.
  intros Hreply Hjson Hstatus Hcode Hown. rewrite invoke_request.
  rewrite (request_error_shaped _ _ _ _ _ _ _ Hreply Hjson Hstatus), Hcode.
  simpl. rewrite Hown. reflexivity.
Qed.

(** X8: the API key goes into the [Authorization] header and nowhere else.
    Two clients that differ only in their key issue calls with the same
    URL, method and body, and reach the same outcome when the transport
    reacts in the same way. *)
Theorem api_key_only_in_header (prefix k1 k2 : string) op net1 net2 :
  let this1 := {| pathPrefix := prefix; apiKey := k1 |} in
  let this2 := {| pathPrefix := prefix; apiKey := k2 |} in
  map call_url (calls (invoke this1 op net1)) = map call_url (calls (invoke this2 op net2))
  /\ map (fun c => method (call_init c)) (calls (invoke this1 op net1))
     = map (fun c => method (call_init c)) (calls (invoke this2 op net2))
  /\ map (fun c => body (call_init c)) (calls (invoke this1 op net1))
     = map (fun c => body (call_init c)) (calls (invoke this2 op net2))
  /\ (reply net1 (request_of this1 op) = reply net2 (request_of this2 op) ->
      outcome (invoke this1 op net1) = outcome (invoke this2 op net2)).
Proof.
  intros this1 this2. rewrite !invoke_request, !request_calls.
  repeat split. apply request_outcome_reply.
Qed.

End Properties.

(** ** The claims at concrete inputs, on [integer_platform] *)

(** The body of [withdrawInfo({id: 'w1'})] is the text of an object with
    the one property [id]. *)
Lemma withdrawInfo_body_text :
  map (fun c => body (call_init c)) (calls (invoke key_client withdraw_w1 refused))
  = [ Some ("{" ++ QuoteJSONString "id" ++ ":" ++ QuoteJSONString "w1" ++ "}")%string ].
Proof. reflexivity. Qed.

(** C2 at the answer [{status: 'error', code: 42, message: 'bad account'}]. *)
Lemma remote_error_raises_LavaError_witness :
  outcome (invoke key_client withdraw_w1 (answers 200 bad_account))
  = inl (new_Error LavaError "42: bad account").
Proof.
  exact (proj2 (@remote_error_raises_LavaError integer_platform key_client withdraw_w1
                  (answers 200 bad_account) {| status := 200%Z; json := inr bad_account |}
                  _ eq_refl eq_refl eq_refl)
           "42" "bad account" eq_refl eq_refl).
Defined.


Lemma has_colon_space_between (code msg : string) :
  has_colon_space (code ++ ": " ++ msg) = true.
Proof.
  induction code as [| a code IH]; simpl in *.
  - reflexivity.
  - rewrite IH. apply orb_true_r.
Qed.

(** C2 as stated fails: at the answer [{status: 'error', code: {toString:
    'x'}, message: 'bad account'}] the message of the [LavaError] is that
    of the [TypeError] the interpolation throws; it is not a code, a colon,
    a space and a message, whatever the code and the message. *)
Lemma remote_error_message_not_built :
  outcome (invoke key_client withdraw_w1 (answers 200 unprintable_code))
  = inl (new_Error LavaError "Cannot convert object to primitive value")
  /\ forall code msg : string,
       outcome (invoke key_client withdraw_w1 (answers 200 unprintable_code))
       <> inl (new_Error LavaError (code ++ ": " ++ msg)%string).
Proof.
  split; [reflexivity |].
  intros code msg Heq.
  assert (Hmsg : "Cannot convert object to primitive value" = (code ++ ": " ++ msg)%string).
  { change (outcome (invoke key_client withdraw_w1 (answers 200 unprintable_code)))
      with (@inl Error (@jsval integer_platform)
              (new_Error LavaError "Cannot convert object to primitive value")) in Heq.
    injection Heq as Heq. exact Heq. }
  apply (f_equal has_colon_space) in Hmsg.
  rewrite has_colon_space_between in Hmsg. discriminate Hmsg.
Qed.

(** C7, at the input where the code departs from it: the call [testPing]
    issues has the method GET and carries a body, the two characters of the
    empty object. *)
Lemma testPing_carries_a_body :
  calls (testPing key_client refused)
  = [ {| call_url := "https://api.lava.ru/test/ping";
         call_init := {| method := "GET";
                         body := Some "{}";
                         headers := [("Authorization", "secret-key")] |} |} ]
  /\ ~ Forall carries_no_body (calls (testPing key_client refused)).
Proof.
  split; [reflexivity |].
  intros Hall. inversion Hall as [| c l [Hbody | Hbody] Hrest]; discriminate Hbody.
Qed.

(** The call of a GET operation, at [testPing]. *)
Lemma get_operations_send_empty_object_witness :
  method_of (@TestPing integer_platform) = "GET"
  /\ calls (invoke key_client TestPing refused)
     = [ {| call_url := "https://api.lava.ru/test/ping";
            call_init := {| method := "GET";
                            body := Some "{}";
                            headers := [("Authorization", "secret-key")] |} |} ].
Proof.
  split; [reflexivity |].
  apply (proj2 (@get_operations_send_empty_object integer_platform key_client TestPing
                  refused eq_refl)).
Defined.

(** C8 at an answer that is an empty array. *)
Lemma invoiceInfo_without_identifiers_witness :
  outcome (invoiceInfo key_client no_identifiers (answers 200 (VArr []))) = inr (VArr []).
Proof.
  apply (proj2 (proj2 (@invoiceInfo_without_identifiers integer_platform key_client
                         (answers 200 (VArr []))))
           {| status := 200%Z; json := inr (VArr []) |});
    [reflexivity | reflexivity | discriminate | reflexivity].
Defined.

(** X10 at the status code 500 with the answer [{status: 'ok'}]. *)
Lemma status_code_never_inspected_witness :
  outcome (invoke key_client withdraw_w1 (answers 500 status_ok)) = inr status_ok.
Proof.
  apply (proj2 (proj2 (@status_code_never_inspected integer_platform key_client withdraw_w1
                         refused 500%Z)));
    [discriminate | reflexivity].
Defined.

(** C9 at the answer [{status: 'error'}]. *)
Lemma bare_error_status_witness :
  outcome (invoke key_client withdraw_w1 (answers 200 (VObj [("status", VStr "error")])))
  = inl (new_Error LavaError "undefined: undefined").
Proof.
  apply (@bare_error_status integer_platform key_client withdraw_w1
           (answers 200 (VObj [("status", VStr "error")]))
           {| status := 200%Z; json := inr (VObj [("status", VStr "error")]) |}
           [("status", VStr "error")]);
    reflexivity.
Defined.

(** ** The further properties at concrete inputs *)

(** X1 at the literal of [invoiceInfo({orderId: 'o1'})] and its deleted
    key [id]. *)
Lemma delete_undefined_preserves_reads_witness :
  Get (delete_undefined order_only) "id" = Get order_only "id".
Proof.
  apply (@delete_undefined_preserves_reads integer_platform order_only "id").
  simpl. intuition discriminate.
Defined.

(** X2 at the same literal and the key [order_id], which stays. *)
Lemma delete_undefined_keys_witness :
  In "order_id" (Object_keys (delete_undefined order_only)).
Proof.
  apply (proj2 (@delete_undefined_keys integer_platform order_only "order_id"
                  ltac:(simpl; intuition discriminate))).
  discriminate.
Defined.

(** X3 at the literal of [invoiceInfo({orderId: 'o1'})]. *)
Lemma delete_undefined_keeps_defined_entries_witness :
  delete_undefined order_only = [ ("order_id", VStr "o1") ].
Proof.
  apply (@delete_undefined_keeps_defined_entries integer_platform order_only).
  repeat (constructor; [simpl; intuition discriminate |]). constructor.
Defined.

(** X4 at the same literal. *)
Lemma delete_undefined_same_text_witness :
  JSON_stringify (VObj (delete_undefined order_only)) = JSON_stringify (VObj order_only).
Proof.
  apply (@delete_undefined_same_text integer_platform order_only).
  repeat (constructor; [simpl; intuition discriminate |]). constructor.
Defined.

(** X6 at an array that holds an error-shaped object: the array itself is
    not error-shaped and is returned. *)
Lemma answer_returned_iff_witness :
  outcome (invoke key_client withdraw_w1 (answers 200 error_list)) = inr error_list.
Proof.
  apply (proj2 (proj1 (@answer_returned_iff integer_platform key_client withdraw_w1
                         (answers 200 error_list)
                         {| status := 200%Z; json := inr error_list |} error_list
                         eq_refl eq_refl))).
  split; [discriminate | reflexivity].
Defined.

(** X7 at [{status: 'error', code: {toString: 'x'}, message: 'bad account'}]. *)
Lemma unprintable_code_raises_witness :
  outcome (invoke key_client withdraw_w1 (answers 200 unprintable_code))
  = inl (new_Error LavaError "Cannot convert object to primitive value").
Proof.
  apply (@unprintable_code_raises integer_platform key_client withdraw_w1
           (answers 200 unprintable_code)
           {| status := 200%Z; json := inr unprintable_code |}
           [ ("status", VStr "error"); ("code", VObj [ ("toString", VStr "x") ]);
             ("message", VStr "bad account") ]
           [ ("toString", VStr "x") ]);
    reflexivity.
Defined.

(** X8 at two keys and a refused connection. *)
Lemma api_key_only_in_header_witness :
  outcome (invoke {| pathPrefix := "https://api.lava.ru"; apiKey := "key-1" |}
             withdraw_w1 refused)
  = outcome (invoke {| pathPrefix := "https://api.lava.ru"; apiKey := "key-2" |}
               withdraw_w1 refused).
Proof.
  apply (proj2 (proj2 (proj2
           (@api_key_only_in_header integer_platform "https://api.lava.ru" "key-1" "key-2"
              withdraw_w1 refused refused)))).
  reflexivity.
Defined.

(** X9 at [withdrawCreate] called without [subtract]. *)
Lemma body_mapping_is_spec_body_witness :
  body_mapping withdraw_plain
  = [ ("account", VStr "A"); ("amount", @VNum integer_platform 10%Z);
      ("service", VStr "card"); ("wallet_to", VStr "W1"); ("order_id", VStr "o1") ].
Proof.
  rewrite (@body_mapping_is_spec_body integer_platform withdraw_plain eq_refl).
  reflexivity.
Defined.
